(** * a10: a pattern/action query dispatcher over Wikipedia infobox extractors

    Shallow embedding of [a10.py].  Python values are embedded as follows:

    - [str] is Rocq's [string]; a character is an 8-bit [ascii], so code
      points above 255 are outside the model;
    - [List[str]] is [list string];
    - a call that may raise is a computation in the [result] monad, whose
      [Raise] carries the exception;
    - the module-level global [previous_name] is threaded explicitly: the
      dispatcher takes its value on entry and returns its value on exit,
      also when the call ends in an exception (a global survives it);
    - the services the module imports ([wikipedia], [bs4], [re]) are the
      fields of a [World] record. *)

From Stdlib Require Import String Ascii List Bool Arith Lia.
Import ListNotations.
Local Open Scope string_scope.
Local Open Scope list_scope.

(** ** Exceptions and the error monad *)

(** The exceptions the module raises itself, the two the interpreter raises
    on its behalf ([TypeError] for [x in None], [IndexError] for an index out
    of range), and one constructor for whatever the imported libraries
    raise. *)
Inductive exn : Type :=
| TypeError
| IndexError
| LookupError (msg : string)
| AttributeError (msg : string)
| KeyboardInterrupt
| LibraryError (msg : string).

Inductive result (A : Type) : Type :=
| Return (a : A)
| Raise (e : exn).

Arguments Return {A} a.
Arguments Raise {A} e.

Definition bind {A B : Type} (c : result A) (k : A -> result B) : result B :=
  match c with
  | Return a => k a
  | Raise e => Raise e
  end.

Notation "x <- c ;; k" := (bind c (fun x => k))
  (at level 61, c at next level, right associativity).

(** [try: body / except AttributeError: handler]. *)
Definition try_except_AttributeError {A : Type}
    (body : result A) (handler : result A) : result A :=
  match body with
  | Raise (AttributeError _) => handler
  | other => other
  end.

(** ** The Python primitives the module uses *)

Module Py.

(** [l[i]] *)
Definition index {A : Type} (l : list A) (i : nat) : result A :=
  match nth_error l i with
  | Some x => Return x
  | None => Raise IndexError
  end.

(** [sep.join(l)] *)
Definition join (sep : string) (l : list string) : string :=
  String.concat sep l.

(** Truth value of a [str]: every string but the empty one. *)
Definition truthy_str (s : string) : bool :=
  match s with
  | EmptyString => false
  | String _ _ => true
  end.

(** Truth value of a list: every list but the empty one. *)
Definition truthy_list {A : Type} (l : list A) : bool :=
  match l with
  | [] => false
  | _ :: _ => true
  end.

(** [s.split(sep)] for a one-character separator: never an empty list. *)
Fixpoint split (sep : ascii) (s : string) : list string :=
  match s with
  | EmptyString => [EmptyString]
  | String c s' =>
      if Ascii.eqb c sep then EmptyString :: split sep s'
      else match split sep s' with
           | h :: t => String c h :: t
           | [] => [String c EmptyString]
           end
  end.

(** [c.isspace()] on the code points below 256. *)
Definition isspace (c : ascii) : bool :=
  let n := nat_of_ascii c in
  (((9 <=? n) && (n <=? 13)) || ((28 <=? n) && (n <=? 32))
   || (n =? 133) || (n =? 160))%nat.

Fixpoint lstrip (s : string) : string :=
  match s with
  | EmptyString => EmptyString
  | String c s' => if isspace c then lstrip s' else s
  end.

Fixpoint rstrip (s : string) : string :=
  match s with
  | EmptyString => EmptyString
  | String c s' =>
      match rstrip s' with
      | EmptyString => if isspace c then EmptyString else String c EmptyString
      | r => String c r
      end
  end.

(** [s.strip()] *)
Definition strip (s : string) : string := rstrip (lstrip s).

(** [s.split()]: the maximal runs of non-whitespace characters. *)
Fixpoint split_ws (s : string) : list string :=
  match s with
  | EmptyString => []
  | String c s' =>
      if isspace c then split_ws s'
      else match s' with
           | EmptyString => [String c EmptyString]
           | String c' _ =>
               if isspace c' then String c EmptyString :: split_ws s'
               else match split_ws s' with
                    | h :: t => String c h :: t
                    | [] => [String c EmptyString]
                    end
           end
  end.

(** [x in l] for a list of strings. *)
Definition mem (x : string) (l : list string) : bool :=
  existsb (String.eqb x) l.

(** [x in mat] where [mat] is a list or [None]: membership in [None] is a
    [TypeError]. *)
Definition contains (x : string) (mat : option (list string)) : result bool :=
  match mat with
  | None => Raise TypeError
  | Some l => Return (mem x l)
  end.

(** [mat is not None] *)
Definition is_not_None {A : Type} (mat : option A) : bool :=
  match mat with
  | None => false
  | Some _ => true
  end.

(** [s is not None] for a name that is only ever bound to a [str]. *)
Definition str_is_not_None (s : string) : bool := true.

(** [string.printable]: digits, letters, punctuation and the six ASCII
    whitespace characters, that is 9..13 and 32..126. *)
Definition printable (c : ascii) : bool :=
  let n := nat_of_ascii c in
  (((32 <=? n) && (n <=? 126)) || ((9 <=? n) && (n <=? 13)))%nat.

(** [re.sub(c+, c, s)] for a single character [c]: every maximal run of
    [c] becomes one [c]. *)
Fixpoint collapse_runs (c : ascii) (s : string) : string :=
  match s with
  | EmptyString => EmptyString
  | String a s' =>
      if Ascii.eqb a c then
        match s' with
        | String b _ =>
            if Ascii.eqb b c then collapse_runs c s'
            else String a (collapse_runs c s')
        | EmptyString => String a EmptyString
        end
      else String a (collapse_runs c s')
  end.

(** Lower-casing of the letters A..Z. *)
Definition lower_char (c : ascii) : ascii :=
  let n := nat_of_ascii c in
  if ((65 <=? n) && (n <=? 90))%nat then ascii_of_nat (n + 32) else c.

Fixpoint lower (s : string) : string :=
  match s with
  | EmptyString => EmptyString
  | String c s' => String (lower_char c) (lower s')
  end.

End Py.

(** ** The imported services *)

(** A [re.Match] object, as far as the module looks into it.  Every named
    group the module asks for is a mandatory part of its pattern, so on a
    successful search [group] is bound to a string. *)
Record Match : Type := { group : string -> string }.

(** What the module calls from [wikipedia], [bs4] and [re]:
    - [wikipedia_search title] is [wikipedia.search(title)];
    - [WikipediaPage_html title] is [WikipediaPage(title).html()];
    - [find_all_infobox html] is the [.text] of every element of
      [BeautifulSoup(html, "html.parser").find_all(class_="infobox")], in
      document order;
    - [re_search pattern text] is
      [re.compile(pattern, re.DOTALL | re.IGNORECASE).search(text)];
    - [re_findall pattern text] is [re.findall(pattern, text)] for a pattern
      with one capturing group. *)
Record World : Type := {
  wikipedia_search : string -> result (list string);
  WikipediaPage_html : string -> result string;
  find_all_infobox : string -> list string;
  re_search : string -> string -> option Match;
  re_findall : string -> string -> list string
}.

(** ** The pattern matcher *)

(** Modelled from the spec: the function [match] of the module [match]
    (imported by [from match import match]; the module itself is not among
    the sources embedded here).  Pattern and input are walked position by position; a
    token other than the wildcard must equal the input token at the same
    position, case-insensitively; the wildcard [%] is tried against every
    contiguous span of the remaining input, the empty one first, and the rest
    of the pattern must match the rest of the input.  The result is the list
    of input tokens the wildcard consumed, or [None] when there is no
    match. *)
Definition is_wildcard (tok : string) : bool := String.eqb tok "%".

Definition token_eq (p x : string) : bool :=
  String.eqb (Py.lower p) (Py.lower x).

Fixpoint match_ (pattern input : list string) : option (list string) :=
  match pattern with
  | [] =>
      match input with
      | [] => Some []
      | _ :: _ => None
      end
  | p :: ps =>
      if is_wildcard p then
        (fix span (inp : list string) : option (list string) :=
           match match_ ps inp with
           | Some captured => Some captured
           | None =>
               match inp with
               | [] => None
               | x :: xs => option_map (cons x) (span xs)
               end
           end) input
      else
        match input with
        | [] => None
        | x :: xs => if token_eq p x then match_ ps xs else None
        end
  end.

(** ** The extractors *)

Section Extractors.

Variable w : World.

Definition get_page_html (title : string) : result string :=
  results <- wikipedia_search w title ;;
  first <- Py.index results 0 ;;
  WikipediaPage_html w first.

Definition get_first_infobox_text (html : string) : result string :=
  let results := find_all_infobox w html in
  if negb (Py.truthy_list results) then Raise (LookupError "Page has no infobox")
  else Py.index results 0.

Definition clean_text (text : string) : string :=
  let only_ascii :=
    String.concat EmptyString
      (map (fun char => if Py.printable char then String char EmptyString else " ")
           (list_ascii_of_string text)) in
  let no_dup_spaces := Py.collapse_runs " "%char only_ascii in
  let no_dup_newlines := Py.collapse_runs (ascii_of_nat 10) no_dup_spaces in
  no_dup_newlines.

Definition default_error_text : string :=
  "Page doesn't appear to have the property you're expecting".

Definition get_match (text pattern error_text : string) : result Match :=
  match re_search w pattern text with
  | None => Raise (AttributeError error_text)
  | Some m => Return m
  end.

Definition get_polar_radius (planet_name : string) : result string :=
  html <- get_page_html planet_name ;;
  box <- get_first_infobox_text html ;;
  let infobox_text := clean_text box in
  let pattern := "(?:Polar radius.*?)(?: ?[\d]+ )?(?P<radius>[\d,.]+)(?:.*?)km" in
  let error_text := "Page infobox has no polar radius information" in
  m <- get_match infobox_text pattern error_text ;;
  Return (group m "radius").

Definition get_birth_date (name : string) : result string :=
  html <- get_page_html name ;;
  box <- get_first_infobox_text html ;;
  let infobox_text := clean_text box in
  let pattern := "(?:Born\D*)(?P<birth>\d{4}-\d{2}-\d{2})" in
  let error_text :=
    "Page infobox has no birth information (at least none in xxxx-xx-xx format)" in
  m <- get_match infobox_text pattern error_text ;;
  Return (group m "birth").

Definition office_pattern_start : string :=
  "President of the United StatesIn office+(?P<officestart>[A-Za-z]+\s+\d{1,2},\s+\d{4})".

Definition office_pattern_end : string :=
  "President of the United StatesIn office+([A-Za-z]+\s+\d{1,2},\s+\d{4})\s+(?P<officeend>[A-Za-z]+\s+\d{1,2},\s+\d{4})".

Definition incumbent_pattern : string :=
  "IncumbentAssumed office\s+(?P<officestart>[A-Za-z]+\s+\d{1,2},\s+\d{4})".

Definition get_incumbency_start (name : string) : result string :=
  html <- get_page_html name ;;
  box <- get_first_infobox_text html ;;
  let infobox_text := clean_text box in
  let pattern := office_pattern_start in
  let error_text := "Page infobox has no incumbency start information" in
  try_except_AttributeError
    (m <- get_match infobox_text pattern error_text ;;
     Return (group m "officestart"))
    (let newpattern := incumbent_pattern in
     m <- get_match infobox_text newpattern error_text ;;
     Return (group m "officestart")).

Definition get_incumbency_end (name : string) : result string :=
  html <- get_page_html name ;;
  box <- get_first_infobox_text html ;;
  let infobox_text := clean_text box in
  let pattern := office_pattern_end in
  let error_text := "Page infobox has no incumbency end information" in
  try_except_AttributeError
    (m <- get_match infobox_text pattern error_text ;;
     Return (group m "officeend"))
    (let newpattern := incumbent_pattern in
     m <- get_match infobox_text newpattern error_text ;;
     let _ := group m "officestart" in
     Return "Current incumbent").

Definition number_pattern : string :=
  "(\d{2})(?=(?:st|nd|rd|th)\b(?: & \b\d+(?:st|nd|rd|th)\b)? President of the United States)".

Definition get_number (name : string) : result (list string) :=
  html <- get_page_html name ;;
  box <- get_first_infobox_text html ;;
  let infobox_text := clean_text box in
  let pattern := number_pattern in
  let matches := re_findall w pattern infobox_text in
  if negb (Py.truthy_list matches)
  then Raise (AttributeError "Page infobox has no presidential number information")
  else Return matches.

(** ** The actions *)

Definition birth_date (matches : list string) : result (list string) :=
  d <- get_birth_date (Py.join " " matches) ;;
  Return [d].

Definition incumbency_start (matches : list string) : result (list string) :=
  d <- get_incumbency_start (Py.join " " matches) ;;
  Return [d].

Definition incumbency_start_year (matches : list string) : result (list string) :=
  date <- get_incumbency_start (Py.join " " matches) ;;
  if Py.truthy_str date then
    part <- Py.index (Py.split ","%char date) 1 ;;
    Return [Py.strip part]
  else Return ["No answers"].

Definition incumbency_end (matches : list string) : result (list string) :=
  d <- get_incumbency_end (Py.join " " matches) ;;
  Return [d].

Definition incumbency_end_year (matches : list string) : result (list string) :=
  date <- get_incumbency_end (Py.join " " matches) ;;
  if Py.truthy_str date then
    part <- Py.index (Py.split ","%char date) 1 ;;
    Return [Py.strip part]
  else Return ["No answers"].

Definition number (matches : list string) : result (list string) :=
  results <- get_number (Py.join " " matches) ;;
  if (1 <? List.length results)%nat then
    r0 <- Py.index results 0 ;;
    r1 <- Py.index results 1 ;;
    Return [(r0 ++ " & " ++ r1)%string]
  else Return results.

Definition polar_radius (matches : list string) : result (list string) :=
  planet <- Py.index matches 0 ;;
  r <- get_polar_radius planet ;;
  Return [r].

Definition bye_action (dummy : list string) : result (list string) :=
  Raise KeyboardInterrupt.

(** ** The pattern-action list *)

Definition Pattern : Type := list string.
Definition Action : Type := list string -> result (list string).

Definition pa_list : list (Pattern * Action) :=
  [ (Py.split_ws "when did % take office", incumbency_start);
    (Py.split_ws "when did % become president", incumbency_start);
    (Py.split_ws "what year did % take office", incumbency_start_year);
    (Py.split_ws "what year did % become president", incumbency_start_year);
    (Py.split_ws "when did % begin his presidency", incumbency_start);
    (Py.split_ws "what year did % begin his presidency", incumbency_start_year);
    (Py.split_ws "when did % leave office", incumbency_end);
    (Py.split_ws "when did % end his presidency", incumbency_end);
    (Py.split_ws "what year did % leave office", incumbency_end_year);
    (Py.split_ws "when year did % end his presidency", incumbency_end_year);
    (Py.split_ws "what number president is %", number);
    (Py.split_ws "what number president was %", number);
    (Py.split_ws "which number president is %", number);
    (Py.split_ws "which number president was %", number);
    (["bye"], bye_action) ].

End Extractors.

(** ** The dispatcher *)

(** The test of the first [if] of the loop body,
    [mat is not None and "he" in mat or "they" in mat and previous_name is not None],
    which Python reads as
    [(mat is not None and "he" in mat) or ("they" in mat and previous_name is not None)],
    each [and] and [or] evaluating its right operand only when needed. *)
Definition pronoun_test (mat : option (list string)) (previous_name : string)
    : result bool :=
  left_operand <-
    (if Py.is_not_None mat then Py.contains "he" mat else Return false) ;;
  if left_operand then Return true
  else
    they <- Py.contains "they" mat ;;
    if they then Return (Py.str_is_not_None previous_name) else Return false.

(** [answer if answer else ["No answers"]] *)
Definition answer_or_default (answer : list string) : list string :=
  if Py.truthy_list answer then answer else ["No answers"].

(** The [for] loop of [search_pa_list] over a pattern-action list.  The
    second component of the result is the value of [previous_name] when the
    call ends. *)
Fixpoint search_pa_list_from (table : list (Pattern * Action))
    (src : list string) (previous_name : string)
    : result (list string) * string :=
  match table with
  | [] => (Return ["I don't understand"], previous_name)
  | (pat, act) :: rest =>
      let mat := match_ pat src in
      match pronoun_test mat previous_name with
      | Raise e => (Raise e, previous_name)
      | Return true =>
          (answer <- act [previous_name] ;; Return (answer_or_default answer),
           previous_name)
      | Return false =>
          match mat with
          | Some captured =>
              match act captured with
              | Raise e => (Raise e, previous_name)
              | Return answer =>
                  match Py.index captured 0 with
                  | Raise e => (Raise e, previous_name)
                  | Return first => (Return (answer_or_default answer), first)
                  end
              end
          | None => search_pa_list_from rest src previous_name
          end
      end
  end.

Definition search_pa_list (w : World) (src : list string) (previous_name : string)
    : result (list string) * string :=
  search_pa_list_from (pa_list w) src previous_name.

(** The two calls at the bottom of the module, run when it is imported:
    [previous_name] starts as the empty string, the first query is dispatched,
    and the second is dispatched only if the first call returned. *)
Definition demo_queries : list string * list string :=
  (Py.split_ws (Py.lower "when did abraham lincoln take office"),
   Py.split_ws (Py.lower "when did he leave office")).

Definition module_demo (w : World) : result (list string * list string) * string :=
  match search_pa_list w (fst demo_queries) EmptyString with
  | (Raise e, previous_name) => (Raise e, previous_name)
  | (Return answers1, previous_name) =>
      match search_pa_list w (snd demo_queries) previous_name with
      | (Raise e, previous_name') => (Raise e, previous_name')
      | (Return answers2, previous_name') =>
          (Return (answers1, answers2), previous_name')
      end
  end.

(** ** Vocabulary of the statements *)

(** [c in s] for a character and a string. *)
Fixpoint has_char (c : ascii) (s : string) : bool :=
  match s with
  | EmptyString => false
  | String a s' => Ascii.eqb a c || has_char c s'
  end.

(** The captured tokens name a pronoun. *)
Definition names_pronoun (captured : list string) : bool :=
  Py.mem "he" captured || Py.mem "they" captured.

(** The argument the loop body passes to the action of a matched entry. *)
Definition dispatched_argument (captured : list string) (previous_name : string)
    : list string :=
  if names_pronoun captured then [previous_name] else captured.

(** ** A scripted world for the worked examples

    Three presidents: one with a finished term, one with two terms and an
    incumbent.  One page has an infobox without dates, on one the searches
    succeed with every group empty, two pages have no infobox, and nothing
    else is found. *)
Module Scripted.

Definition lincoln_box : string :=
  "16th President of the United StatesIn officeMarch 4, 1861 April 15, 1865".

Definition cleveland_box : string :=
  "22nd & 24th President of the United StatesIn officeMarch 4, 1893 March 4, 1897".

Definition incumbent_box : string :=
  "48th President of the United StatesIncumbentAssumed office January 20, 2029".

Definition memorial_box : string := "Lincoln MemorialLocation Washington, D.C.".

Definition blank_box : string := "President of the United StatesIn office".

Definition search (title : string) : result (list string) :=
  if String.eqb title "abraham lincoln" then Return ["Abraham Lincoln"; "Lincoln Memorial"]
  else if String.eqb title "abraham" then Return ["Abraham Lincoln"; "Abraham"]
  else if String.eqb title "grover cleveland" then Return ["Grover Cleveland"]
  else if String.eqb title "jane doe" then Return ["Jane Doe"]
  else if String.eqb title "he" then Return ["He (pronoun)"]
  else if String.eqb title "john doe" then Return ["John Doe"]
  else if String.eqb title "lincoln memorial" then Return ["Lincoln Memorial"]
  else if String.eqb title "nobody" then Return ["Nobody"]
  else Return [].

Definition html (title : string) : result string :=
  Return ("<html>" ++ title ++ "</html>")%string.

Definition infoboxes (page : string) : list string :=
  if String.eqb page "<html>Abraham Lincoln</html>" then [lincoln_box; "Personal details"]
  else if String.eqb page "<html>Grover Cleveland</html>" then [cleveland_box]
  else if String.eqb page "<html>Jane Doe</html>" then [incumbent_box]
  else if String.eqb page "<html>Lincoln Memorial</html>" then [memorial_box]
  else if String.eqb page "<html>Nobody</html>" then [blank_box]
  else [].

Definition bound (pairs : list (string * string)) : Match :=
  {| group := fun name =>
       match find (fun p => String.eqb (fst p) name) pairs with
       | Some p => snd p
       | None => EmptyString
       end |}.

Definition search_re (pattern text : string) : option Match :=
  if String.eqb text lincoln_box then
    if String.eqb pattern office_pattern_start
    then Some (bound [("officestart", "March 4, 1861")])
    else if String.eqb pattern office_pattern_end
    then Some (bound [("officeend", "April 15, 1865")])
    else None
  else if String.eqb text cleveland_box then
    if String.eqb pattern office_pattern_start
    then Some (bound [("officestart", "March 4, 1893")])
    else if String.eqb pattern office_pattern_end
    then Some (bound [("officeend", "March 4, 1897")])
    else None
  else if String.eqb text incumbent_box then
    if String.eqb pattern incumbent_pattern
    then Some (bound [("officestart", "January 20, 2029")])
    else None
  else if String.eqb text blank_box then Some (bound [])
  else None.

Definition findall (pattern text : string) : list string :=
  if String.eqb pattern number_pattern then
    if String.eqb text lincoln_box then ["16"]
    else if String.eqb text cleveland_box then ["22"; "24"]
    else if String.eqb text incumbent_box then ["48"]
    else []
  else [].

Definition world : World :=
  {| wikipedia_search := search;
     WikipediaPage_html := html;
     find_all_infobox := infoboxes;
     re_search := search_re;
     re_findall := findall |}.

(** A table whose only action answers nothing, and one that ends the
    session: the loop body of [search_pa_list] on actions other than the
    fixed ones. *)
Definition silent (matches : list string) : result (list string) := Return [].

Definition silent_table : list (Pattern * Action) :=
  [ (Py.split_ws "tell me about %", silent) ].

Definition bye_table : list (Pattern * Action) :=
  [ (["bye"], bye_action) ].

End Scripted.

(** ** The console loop *)

Module Console.

(** [c.isupper()] on the code points below 256: A..Z and the capital letters
    of Latin-1, 192..222 without the multiplication sign 215. *)
Definition is_upper (c : ascii) : bool :=
  let n := nat_of_ascii c in
  (((65 <=? n) && (n <=? 90))
   || ((192 <=? n) && (n <=? 222) && negb (n =? 215)))%nat.

(** [s.lower()] on the code points below 256, the characters of the model;
    Python's [str] has capital letters above 255 that [lower] leaves as they
    are, and nothing proved below relies on their absence. *)
Definition lower_char (c : ascii) : ascii :=
  if is_upper c then ascii_of_nat (nat_of_ascii c + 32) else c.

Fixpoint lower (s : string) : string :=
  match s with
  | EmptyString => EmptyString
  | String c s' => String (lower_char c) (lower s')
  end.

(** [s.replace(c, "")] for a one-character [c]. *)
Fixpoint remove_char (c : ascii) (s : string) : string :=
  match s with
  | EmptyString => EmptyString
  | String a s' =>
      if Ascii.eqb a c then remove_char c s' else String a (remove_char c s')
  end.

(** What [query_loop] makes of a typed line:
    [line.replace("?", "").lower().split()]. *)
Definition read_query (line : string) : list string :=
  Py.split_ws (lower (remove_char "?" line)).

(** What [input] meets at the prompt: a typed line or Ctrl-C; the end of the
    list is the end of input (Ctrl-D). *)
Inductive keyboard : Type :=
| Typed (line : string)
| CtrlC.

(** How the [while] loop is left: by [break], or by an exception that the
    [except] clause does not name. *)
Inductive loop_exit : Type :=
| Break
| Propagate (e : exn).

Definition nl : string := String (ascii_of_nat 10) EmptyString.

(** [print(line)] appended to what standard output holds. *)
Definition print (out line : string) : string := (out ++ line ++ nl)%string.

(** The [while True] loop of [query_loop]: what standard output holds, the
    value of [previous_name] and the way the loop is left. *)
Fixpoint while_loop (w : World) (keys : list keyboard) (previous_name out : string)
    : string * string * loop_exit :=
  let out := print out EmptyString in
  let out := (out ++ "Your query? ")%string in
  match keys with
  | [] => (out, previous_name, Break)
  | CtrlC :: _ => (out, previous_name, Break)
  | Typed line :: rest =>
      let query := read_query line in
      match search_pa_list w query previous_name with
      | (Raise KeyboardInterrupt, previous_name') => (out, previous_name', Break)
      | (Raise e, previous_name') => (out, previous_name', Propagate e)
      | (Return answers, previous_name') =>
          while_loop w rest previous_name' (fold_left print answers out)
      end
  end.

(** [query_loop()]: standard output, [previous_name] and, when the call ends
    in an exception, that exception. *)
Definition query_loop (w : World) (keys : list keyboard) (previous_name : string)
    : string * string * option exn :=
  let out := print EmptyString "Presidental Information System" in
  match while_loop w keys previous_name out with
  | (out, previous_name', Break) =>
      (print out (nl ++ "So long!" ++ nl)%string, previous_name', None)
  | (out, previous_name', Propagate e) => (out, previous_name', Some e)
  end.

End Console.

(** ** More vocabulary of the statements *)

(** Every character of [s] passes the test [p]. *)
Fixpoint all_chars (p : ascii -> bool) (s : string) : bool :=
  match s with
  | EmptyString => true
  | String c s' => p c && all_chars p s'
  end.

(** No two neighbouring characters of [s] are both [c]. *)
Fixpoint no_double (c : ascii) (s : string) : bool :=
  match s with
  | EmptyString => true
  | String a s' =>
      match s' with
      | EmptyString => true
      | String b _ => negb (Ascii.eqb a c && Ascii.eqb b c) && no_double c s'
      end
  end.

(** [s] starts with the character [c]. *)
Definition head_is (c : ascii) (s : string) : bool :=
  match s with
  | EmptyString => false
  | String a _ => Ascii.eqb a c
  end.

(** The character [clean_text] puts in the place of [char]. *)
Definition printable_or_space (char : ascii) : ascii :=
  if Py.printable char then char else " "%char.

Fixpoint map_chars (f : ascii -> ascii) (s : string) : string :=
  match s with
  | EmptyString => EmptyString
  | String c s' => String (f c) (map_chars f s')
  end.

(** The scripted world with the search out of order: every search raises
    [e]. *)
Definition search_fails (e : exn) : World :=
  {| wikipedia_search := fun _ => Raise e;
     WikipediaPage_html := Scripted.html;
     find_all_infobox := Scripted.infoboxes;
     re_search := Scripted.search_re;
     re_findall := Scripted.findall |}.

(** One of the letters A to Z. *)
Definition ascii_capital (c : ascii) : bool :=
  ((65 <=? nat_of_ascii c) && (nat_of_ascii c <=? 90))%nat.

(** The first pattern of [pa_list]. *)
Definition take_office : Pattern := ["when"; "did"; "%"; "take"; "office"].

(** * Properties *)

(** ** The primitives *)

Example split_date : Py.split "," "March 4, 1861" = ["March 4"; " 1861"].
Proof. reflexivity. Qed.

Example split_current_incumbent :
  Py.split "," "Current incumbent" = ["Current incumbent"].
Proof. reflexivity. Qed.

Example strip_year : Py.strip " 1861 " = "1861".
Proof. reflexivity. Qed.

Example split_ws_pattern :
  Py.split_ws "when did % take office" = ["when"; "did"; "%"; "take"; "office"].
Proof. reflexivity. Qed.

Example clean_text_collapses :
  clean_text ("In  office" ++ String (ascii_of_nat 150) "1861")%string
  = "In office 1861".
Proof. reflexivity. Qed.

Example match_captures_name :
  match_ (Py.split_ws "what year did % take office")
         (Py.split_ws "what year did abraham lincoln take office")
  = Some ["abraham"; "lincoln"].
Proof. reflexivity. Qed.

Example match_empty_capture :
  match_ (Py.split_ws "what number president is %")
         (Py.split_ws "what number president is") = Some [].
Proof. reflexivity. Qed.

Example match_without_wildcard :
  match_ ["bye"] ["bye"] = Some [] /\ match_ ["bye"] ["bye"; "now"] = None.
Proof. split; reflexivity. Qed.

Lemma split_not_nil (sep : ascii) (s : string) : Py.split sep s <> [].
Proof.
  induction s as [|c s IH]; simpl; [discriminate|].
  destruct (Ascii.eqb c sep); [discriminate|].
  destruct (Py.split sep s); discriminate.
Qed.

Lemma split_without_sep (sep : ascii) (s : string) :
  has_char sep s = false -> Py.split sep s = [s].
Proof.
  induction s as [|c s IH]; simpl; intros H; [reflexivity|].
  apply orb_false_iff in H as [Hc Hs].
  rewrite Hc, (IH Hs). reflexivity.
Qed.

Lemma split_at_first_sep (sep : ascii) (a b : string) :
  has_char sep a = false ->
  Py.split sep (a ++ String sep b) = a :: Py.split sep b.
Proof.
  induction a as [|c a IH]; simpl; intros H.
  - rewrite Ascii.eqb_refl. reflexivity.
  - apply orb_false_iff in H as [Hc Ha].
    rewrite Hc, (IH Ha). reflexivity.
Qed.

Lemma split_with_sep (sep : ascii) (s : string) :
  has_char sep s = true ->
  exists a b rest, Py.split sep s = a :: b :: rest.
Proof.
  induction s as [|c s IH]; simpl; intros H; [discriminate|].
  destruct (Ascii.eqb c sep) eqn:Hc.
  - destruct (Py.split sep s) as [|h t] eqn:Hs.
    + exfalso. exact (split_not_nil sep s Hs).
    + exists EmptyString, h, t. reflexivity.
  - simpl in H. destruct (IH H) as (a & b & rest & Hs).
    rewrite Hs. exists (String c a), b, rest. reflexivity.
Qed.

Lemma append_assoc (a b c : string) : ((a ++ b) ++ c = a ++ (b ++ c))%string.
Proof.
  induction a as [|x a IH]; simpl; [reflexivity|].
  rewrite IH. reflexivity.
Qed.

Lemma has_char_app (c : ascii) (a b : string) :
  has_char c (a ++ b) = has_char c a || has_char c b.
Proof.
  induction a as [|x a IH]; simpl; [reflexivity|].
  rewrite IH. apply orb_assoc.
Qed.

Lemma strip_leading_space (s : string) : Py.strip (String " " s) = Py.strip s.
Proof. reflexivity. Qed.

(** ** The loop body of the dispatcher *)

Lemma pronoun_test_no_match (previous_name : string) :
  pronoun_test None previous_name = Raise TypeError.
Proof. reflexivity. Qed.

Lemma pronoun_test_match (captured : list string) (previous_name : string) :
  pronoun_test (Some captured) previous_name = Return (names_pronoun captured).
Proof.
  unfold pronoun_test, names_pronoun. simpl.
  destruct (Py.mem "he" captured); simpl; [reflexivity|].
  destruct (Py.mem "they" captured); reflexivity.
Qed.

(** An entry that does not match ends the call: the second operand of [or]
    asks whether ["they"] is in [None]. *)
Lemma head_unmatched (pat : Pattern) (act : Action) (rest : list (Pattern * Action))
    (src : list string) (previous_name : string) :
  match_ pat src = None ->
  search_pa_list_from ((pat, act) :: rest) src previous_name
  = (Raise TypeError, previous_name).
Proof.
  intros H. simpl. rewrite H, pronoun_test_no_match. reflexivity.
Qed.

Lemma head_pronoun (pat : Pattern) (act : Action) (rest : list (Pattern * Action))
    (src captured : list string) (previous_name : string) :
  match_ pat src = Some captured ->
  names_pronoun captured = true ->
  search_pa_list_from ((pat, act) :: rest) src previous_name
  = (answer <- act [previous_name] ;; Return (answer_or_default answer),
     previous_name).
Proof.
  intros H Hp. simpl. rewrite H, pronoun_test_match, Hp. reflexivity.
Qed.

Lemma head_plain (pat : Pattern) (act : Action) (rest : list (Pattern * Action))
    (src captured : list string) (previous_name : string) :
  match_ pat src = Some captured ->
  names_pronoun captured = false ->
  search_pa_list_from ((pat, act) :: rest) src previous_name
  = match act captured with
    | Raise e => (Raise e, previous_name)
    | Return answer =>
        match captured with
        | [] => (Raise IndexError, previous_name)
        | first :: _ => (Return (answer_or_default answer), first)
        end
    end.
Proof.
  intros H Hp. simpl. rewrite H, pronoun_test_match, Hp.
  destruct (act captured) as [answer|e]; [|reflexivity].
  destruct captured; reflexivity.
Qed.

(** Every pass through the loop body returns or raises, so only the first
    entry of the table is ever looked at. *)
Lemma only_head_is_tried (entry : Pattern * Action) (rest : list (Pattern * Action))
    (src : list string) (previous_name : string) :
  search_pa_list_from (entry :: rest) src previous_name
  = search_pa_list_from [entry] src previous_name.
Proof.
  destruct entry as [pat act]. simpl.
  destruct (match_ pat src) as [captured|].
  - rewrite pronoun_test_match.
    destruct (names_pronoun captured); reflexivity.
  - rewrite pronoun_test_no_match. reflexivity.
Qed.

Lemma answer_or_default_not_nil (answer : list string) :
  answer_or_default answer <> [].
Proof. destruct answer; discriminate. Qed.

Lemma raise_keeps_previous_name (table : list (Pattern * Action))
    (src : list string) (previous_name previous_name' : string) (e : exn) :
  search_pa_list_from table src previous_name = (Raise e, previous_name') ->
  previous_name' = previous_name.
Proof.
  destruct table as [|[pat act] rest]; simpl; [discriminate|].
  destruct (match_ pat src) as [captured|].
  - rewrite pronoun_test_match.
    destruct (names_pronoun captured).
    + intros H. injection H as _ H. symmetry. exact H.
    + destruct (act captured) as [answer|e'].
      * destruct captured as [|first tl]; simpl; intros H.
        -- injection H as _ H. symmetry. exact H.
        -- discriminate.
      * intros H. injection H as _ H. symmetry. exact H.
  - rewrite pronoun_test_no_match. intros H. injection H as _ H. symmetry. exact H.
Qed.

Lemma first_pattern (w : World) :
  exists rest,
    pa_list w = (["when"; "did"; "%"; "take"; "office"], incumbency_start w) :: rest.
Proof. eexists. reflexivity. Qed.

(** A query that the first pattern does not match ends in a [TypeError],
    whatever the other entries are. *)
Lemma search_pa_list_first_unmatched (w : World) (src : list string)
    (previous_name : string) :
  match_ ["when"; "did"; "%"; "take"; "office"] src = None ->
  search_pa_list w src previous_name = (Raise TypeError, previous_name).
Proof.
  intros H. unfold search_pa_list.
  destruct (first_pattern w) as [rest ->].
  apply head_unmatched. exact H.
Qed.

(** In particular a query that no entry matches. *)
Lemma search_pa_list_unmatched (w : World) (src : list string)
    (previous_name : string) :
  (forall entry, In entry (pa_list w) -> match_ (fst entry) src = None) ->
  search_pa_list w src previous_name = (Raise TypeError, previous_name).
Proof.
  intros H. apply search_pa_list_first_unmatched.
  apply (H (["when"; "did"; "%"; "take"; "office"], incumbency_start w)).
  left. reflexivity.
Qed.

(** ** No matching template *)

(** C1.  The query [what is the weather] matches no entry of the
    pattern-action list, and [search_pa_list] does not answer
    [["I don't understand"]]: the call ends in a [TypeError] raised while the
    first entry is examined.  [previous_name] keeps its value. *)
Theorem no_template_match_raises (w : World) (previous_name : string) :
  forallb (fun entry : Pattern * Action =>
             negb (Py.is_not_None
                     (match_ (fst entry) ["what"; "is"; "the"; "weather"])))
          (pa_list w) = true
  /\ search_pa_list w ["what"; "is"; "the"; "weather"] previous_name
     = (Raise TypeError, previous_name).
Proof.
  split; [reflexivity|].
  apply search_pa_list_first_unmatched. reflexivity.
Qed.

(** ** Pronouns and the remembered name *)

(** C2.  With nothing remembered yet ([previous_name] is the empty string),
    the query [when did he take office] matches the first entry with capture
    [["he"]]; the action is called with the remembered name, the list holding
    the empty string, not with the captured tokens, and [previous_name] stays
    empty. *)
Theorem pronoun_with_nothing_remembered (w : World) :
  match_ (Py.split_ws "when did % take office")
         ["when"; "did"; "he"; "take"; "office"] = Some ["he"]
  /\ search_pa_list w ["when"; "did"; "he"; "take"; "office"] EmptyString
     = (answer <- incumbency_start w [EmptyString] ;;
        Return (answer_or_default answer),
        EmptyString).
Proof.
  split; [reflexivity|].
  unfold search_pa_list.
  destruct (first_pattern w) as [rest ->].
  apply head_pronoun with (captured := ["he"]); reflexivity.
Qed.

(** C3.  With nothing remembered ([previous_name] is the empty string), the
    query [when did he leave office] matches the seventh entry of [pa_list]
    with capture [["he"]], and the call does not return a list: it ends in a
    [TypeError], raised while the first entry, which does not match, is
    examined.  [previous_name] stays empty. *)
Theorem pronoun_query_without_context_raises (w : World) :
  nth_error (map fst (pa_list w)) 6 = Some (Py.split_ws "when did % leave office")
  /\ match_ (Py.split_ws "when did % leave office")
            ["when"; "did"; "he"; "leave"; "office"] = Some ["he"]
  /\ search_pa_list w ["when"; "did"; "he"; "leave"; "office"] EmptyString
     = (Raise TypeError, EmptyString).
Proof.
  split; [reflexivity|]. split; [reflexivity|].
  apply search_pa_list_first_unmatched. reflexivity.
Qed.

(** The same holds with a name remembered, so the two calls the module makes
    when it is imported never both return: if the first is answered, the
    second raises. *)
Lemma module_demo_raises (w : World) :
  exists e previous_name, module_demo w = (Raise e, previous_name).
Proof.
  unfold module_demo.
  destruct (search_pa_list w (fst demo_queries) EmptyString)
    as [[answers|e] previous_name] eqn:H.
  - exists TypeError, previous_name.
    rewrite search_pa_list_first_unmatched; reflexivity.
  - exists e, previous_name. reflexivity.
Qed.

(** ** Empty answers *)

Lemma search_never_returns_nil (table : list (Pattern * Action))
    (src : list string) (previous_name previous_name' : string) :
  search_pa_list_from table src previous_name <> (Return [], previous_name').
Proof.
  destruct table as [|[pat act] rest]; simpl; [discriminate|].
  destruct (match_ pat src) as [captured|].
  - rewrite pronoun_test_match.
    destruct (names_pronoun captured).
    + destruct (act [previous_name]) as [answer|e]; simpl; [|discriminate].
      destruct answer; discriminate.
    + destruct (act captured) as [answer|e]; [|discriminate].
      destruct captured; simpl; [discriminate|].
      destruct answer; discriminate.
  - rewrite pronoun_test_no_match. discriminate.
Qed.

(** The actions of [pa_list] answer with at least one string whenever they
    return. *)
Lemma actions_never_return_nil (w : World) (entry : Pattern * Action)
    (matches : list string) :
  In entry (pa_list w) -> snd entry matches <> Return [].
Proof.
  assert (Hstart : incumbency_start w matches <> Return []).
  { unfold incumbency_start.
    destruct (get_incumbency_start w (Py.join " " matches)); discriminate. }
  assert (Hend : incumbency_end w matches <> Return []).
  { unfold incumbency_end.
    destruct (get_incumbency_end w (Py.join " " matches)); discriminate. }
  assert (Hstart_year : incumbency_start_year w matches <> Return []).
  { unfold incumbency_start_year.
    destruct (get_incumbency_start w (Py.join " " matches)) as [date|e];
      simpl; [|discriminate].
    destruct (Py.truthy_str date); [|discriminate].
    destruct (Py.index (Py.split "," date) 1); discriminate. }
  assert (Hend_year : incumbency_end_year w matches <> Return []).
  { unfold incumbency_end_year.
    destruct (get_incumbency_end w (Py.join " " matches)) as [date|e];
      simpl; [|discriminate].
    destruct (Py.truthy_str date); [|discriminate].
    destruct (Py.index (Py.split "," date) 1); discriminate. }
  assert (Hnumber : number w matches <> Return []).
  { unfold number, get_number.
    destruct (get_page_html w (Py.join " " matches)) as [html|e];
      simpl; [|discriminate].
    destruct (get_first_infobox_text w html) as [box|e]; simpl; [|discriminate].
    destruct (re_findall w number_pattern (clean_text box)) as [|r0 [|r1 more]];
      discriminate. }
  unfold pa_list. simpl.
  intros H.
  repeat (destruct H as [<- | H]; [assumption|]).
  destruct H as [<- | []]. discriminate.
Qed.

(** The first entry of the table, matched with a capture that has a first
    token (or names a pronoun): the dispatcher returns the list of the action
    if it is not empty and [["No answers"]] if it is. *)
Lemma empty_answer_becomes_no_answers
    (pat : Pattern) (act : Action) (rest : list (Pattern * Action))
    (src captured : list string) (previous_name : string) (answer : list string) :
  match_ pat src = Some captured ->
  (names_pronoun captured = false -> captured <> []) ->
  act (dispatched_argument captured previous_name) = Return answer ->
  fst (search_pa_list_from ((pat, act) :: rest) src previous_name)
  = Return (match answer with
            | [] => ["No answers"]
            | _ :: _ => answer
            end)
  /\ fst (search_pa_list_from ((pat, act) :: rest) src previous_name) <> Return [].
Proof.
  intros Hm Hc Ha. unfold dispatched_argument in Ha.
  assert (E : fst (search_pa_list_from ((pat, act) :: rest) src previous_name)
              = Return (answer_or_default answer)).
  { destruct (names_pronoun captured) eqn:Hp.
    - rewrite (head_pronoun pat act rest src captured previous_name Hm Hp), Ha. reflexivity.
    - rewrite (head_plain pat act rest src captured previous_name Hm Hp), Ha.
      destruct captured as [|first tl]; [|reflexivity].
      exfalso. apply Hc; reflexivity. }
  rewrite E. split.
  - destruct answer; reflexivity.
  - intros H. injection H as H. exact (answer_or_default_not_nil answer H).
Qed.

Lemma empty_answer_becomes_no_answers_witness :
  fst (search_pa_list_from Scripted.silent_table
         ["tell"; "me"; "about"; "mars"] "abraham")
  = Return ["No answers"].
Proof.
  apply (empty_answer_becomes_no_answers
           (Py.split_ws "tell me about %") Scripted.silent []
           ["tell"; "me"; "about"; "mars"] ["mars"] "abraham" []).
  - reflexivity.
  - discriminate.
  - reflexivity.
Defined.


(** ** The extractors *)

Section ExtractorFacts.

Variable w : World.

Lemma no_infobox (html : string) :
  find_all_infobox w html = [] ->
  get_first_infobox_text w html = Raise (LookupError "Page has no infobox").
Proof. intros H. unfold get_first_infobox_text. rewrite H. reflexivity. Qed.

Lemma first_infobox (html box : string) (others : list string) :
  find_all_infobox w html = box :: others ->
  get_first_infobox_text w html = Return box.
Proof. intros H. unfold get_first_infobox_text. rewrite H. reflexivity. Qed.

(** C5.  On a page with an infobox, [get_incumbency_end] returns the group
    [officeend] of the two-date pattern when that pattern matches; when it
    does not and the assumed-office pattern matches, it returns
    ["Current incumbent"]; when neither matches it raises
    [AttributeError]. *)
Theorem get_incumbency_end_layouts (name html box : string) :
  get_page_html w name = Return html ->
  get_first_infobox_text w html = Return box ->
  match re_search w office_pattern_end (clean_text box) with
  | Some m => get_incumbency_end w name = Return (group m "officeend")
  | None =>
      match re_search w incumbent_pattern (clean_text box) with
      | Some _ => get_incumbency_end w name = Return "Current incumbent"
      | None =>
          get_incumbency_end w name
          = Raise (AttributeError "Page infobox has no incumbency end information")
      end
  end.
Proof.
  intros Hpage Hbox. unfold get_incumbency_end.
  rewrite Hpage. simpl. rewrite Hbox. simpl. unfold get_match.
  destruct (re_search w office_pattern_end (clean_text box)) as [m|];
    simpl; [reflexivity|].
  destruct (re_search w incumbent_pattern (clean_text box)) as [m|];
    reflexivity.
Qed.

(** The year expression shared by the two year actions. *)
Lemma year_of_well_formed_date (month day year : string) :
  has_char "," month = false ->
  has_char "," day = false ->
  has_char "," year = false ->
  Py.index (Py.split "," (month ++ " " ++ day ++ ", " ++ year)) 1
  = Return (String " " year).
Proof.
  intros Hm Hd Hy.
  replace (month ++ " " ++ day ++ ", " ++ year)%string
    with ((month ++ " " ++ day) ++ String "," (String " " year))%string.
  - rewrite split_at_first_sep.
    + rewrite split_without_sep; [reflexivity|]. simpl. exact Hy.
    + rewrite !has_char_app, Hm, Hd. reflexivity.
  - rewrite !append_assoc. reflexivity.
Qed.

Lemma well_formed_date_truthy (month day year : string) :
  Py.truthy_str (month ++ " " ++ day ++ ", " ++ year) = true.
Proof. destruct month; reflexivity. Qed.

(** C6.  When the extractor yields a date [<Month> <Day>, <Year>], each
    year action returns the one-element list holding [<Year>] stripped of
    surrounding whitespace, the second component of the date split at
    commas; when the extractor yields the empty string, each returns the
    one-element list holding ["No answers"]. *)
Theorem year_actions_on_well_formed_date
    (matches : list string) (month day year : string) :
  has_char "," month = false ->
  has_char "," day = false ->
  has_char "," year = false ->
  let date := (month ++ " " ++ day ++ ", " ++ year)%string in
  (get_incumbency_start w (Py.join " " matches) = Return date ->
   incumbency_start_year w matches = Return [Py.strip year]
   /\ nth_error (Py.split "," date) 1 = Some (String " " year))
  /\ (get_incumbency_end w (Py.join " " matches) = Return date ->
      incumbency_end_year w matches = Return [Py.strip year]
      /\ nth_error (Py.split "," date) 1 = Some (String " " year))
  /\ (get_incumbency_start w (Py.join " " matches) = Return EmptyString ->
      incumbency_start_year w matches = Return ["No answers"])
  /\ (get_incumbency_end w (Py.join " " matches) = Return EmptyString ->
      incumbency_end_year w matches = Return ["No answers"]).
Proof.
  intros Hm Hd Hy date.
  pose proof (year_of_well_formed_date month day year Hm Hd Hy) as Hsplit.
  pose proof (well_formed_date_truthy month day year) as Htrue.
  fold date in Hsplit, Htrue.
  assert (Hnth : nth_error (Py.split "," date) 1 = Some (String " " year)).
  { unfold Py.index in Hsplit.
    destruct (nth_error (Py.split "," date) 1); [|discriminate].
    injection Hsplit as ->. reflexivity. }
  split; [|split; [|split]].
  - intros H. split; [|exact Hnth].
    unfold incumbency_start_year. rewrite H. simpl.
    rewrite Htrue, Hsplit. reflexivity.
  - intros H. split; [|exact Hnth].
    unfold incumbency_end_year. rewrite H. simpl.
    rewrite Htrue, Hsplit. reflexivity.
  - intros H. unfold incumbency_start_year. rewrite H. reflexivity.
  - intros H. unfold incumbency_end_year. rewrite H. reflexivity.
Qed.

(** C7.  Whenever [get_number] finds matches, [number] returns a list of
    exactly one element: with two matches (or more) the first two joined by
    [" & "], with one match that match.  [get_number] never returns an
    empty list. *)
Theorem number_returns_one_element (matches results : list string) :
  get_number w (Py.join " " matches) = Return results ->
  (exists answer, number w matches = Return [answer])
  /\ match results with
     | [] => False
     | [only] => number w matches = Return [only]
     | first :: second :: _ =>
         number w matches = Return [(first ++ " & " ++ second)%string]
     end.
Proof.
  intros H.
  assert (Hne : results <> []).
  { intros ->. unfold get_number in H.
    destruct (get_page_html w (Py.join " " matches)) as [html|e];
      [|discriminate]. simpl in H.
    destruct (get_first_infobox_text w html) as [box|e]; [|discriminate].
    simpl in H.
    destruct (re_findall w number_pattern (clean_text box)); discriminate. }
  unfold number. rewrite H. simpl.
  destruct results as [|first [|second more]].
  - exfalso. apply Hne. reflexivity.
  - split; [eexists|]; reflexivity.
  - split; [eexists|]; reflexivity.
Qed.

(** C10.  On a non-empty date, a year action raises [IndexError] exactly
    when the date holds no comma. *)
Theorem year_actions_need_comma (matches : list string) (date : string) :
  date <> EmptyString ->
  (get_incumbency_start w (Py.join " " matches) = Return date ->
   (incumbency_start_year w matches = Raise IndexError
    <-> has_char "," date = false))
  /\ (get_incumbency_end w (Py.join " " matches) = Return date ->
      (incumbency_end_year w matches = Raise IndexError
       <-> has_char "," date = false)).
Proof.
  intros Hne.
  assert (Htrue : Py.truthy_str date = true).
  { destruct date; [contradiction|reflexivity]. }
  assert (Hyear :
    (part <- Py.index (Py.split "," date) 1 ;; Return [Py.strip part])
    = Raise IndexError <-> has_char "," date = false).
  { destruct (has_char "," date) eqn:Hc.
    - destruct (split_with_sep "," date Hc) as (a & b & rest & ->).
      simpl. split; discriminate.
    - rewrite (split_without_sep "," date Hc). simpl. tauto. }
  split; intros H.
  - unfold incumbency_start_year. rewrite H. simpl. rewrite Htrue. exact Hyear.
  - unfold incumbency_end_year. rewrite H. simpl. rewrite Htrue. exact Hyear.
Qed.

End ExtractorFacts.

Lemma get_incumbency_end_layouts_witness :
  get_incumbency_end Scripted.world "abraham lincoln" = Return "April 15, 1865"
  /\ get_incumbency_end Scripted.world "jane doe" = Return "Current incumbent"
  /\ get_incumbency_end Scripted.world "lincoln memorial"
     = Raise (AttributeError "Page infobox has no incumbency end information").
Proof.
  split; [|split].
  - exact (get_incumbency_end_layouts Scripted.world "abraham lincoln"
             "<html>Abraham Lincoln</html>" Scripted.lincoln_box eq_refl eq_refl).
  - exact (get_incumbency_end_layouts Scripted.world "jane doe"
             "<html>Jane Doe</html>" Scripted.incumbent_box eq_refl eq_refl).
  - exact (get_incumbency_end_layouts Scripted.world "lincoln memorial"
             "<html>Lincoln Memorial</html>" Scripted.memorial_box eq_refl eq_refl).
Defined.

Lemma year_actions_on_well_formed_date_witness :
  incumbency_start_year Scripted.world ["abraham"; "lincoln"] = Return ["1861"]
  /\ incumbency_end_year Scripted.world ["abraham"; "lincoln"] = Return ["1865"]
  /\ incumbency_start_year Scripted.world ["nobody"] = Return ["No answers"]
  /\ incumbency_end_year Scripted.world ["nobody"] = Return ["No answers"].
Proof.
  pose proof (year_actions_on_well_formed_date Scripted.world
                ["abraham"; "lincoln"] "March" "4" "1861"
                eq_refl eq_refl eq_refl) as (Hstart & _ & _ & _).
  pose proof (year_actions_on_well_formed_date Scripted.world
                ["abraham"; "lincoln"] "April" "15" "1865"
                eq_refl eq_refl eq_refl) as (_ & Hend & _ & _).
  pose proof (year_actions_on_well_formed_date Scripted.world
                ["nobody"] "April" "15" "1865"
                eq_refl eq_refl eq_refl) as (_ & _ & Hblank1 & Hblank2).
  split; [|split; [|split]].
  - exact (proj1 (Hstart eq_refl)).
  - exact (proj1 (Hend eq_refl)).
  - exact (Hblank1 eq_refl).
  - exact (Hblank2 eq_refl).
Defined.

Lemma number_returns_one_element_witness :
  number Scripted.world ["grover"; "cleveland"] = Return ["22 & 24"]
  /\ number Scripted.world ["abraham"; "lincoln"] = Return ["16"].
Proof.
  split.
  - exact (proj2 (number_returns_one_element Scripted.world
                    ["grover"; "cleveland"] ["22"; "24"] eq_refl)).
  - exact (proj2 (number_returns_one_element Scripted.world
                    ["abraham"; "lincoln"] ["16"] eq_refl)).
Defined.

Lemma year_actions_need_comma_witness :
  get_incumbency_end Scripted.world "jane doe" = Return "Current incumbent"
  /\ incumbency_end_year Scripted.world ["jane"; "doe"] = Raise IndexError.
Proof.
  split; [reflexivity|].
  assert (Hne : "Current incumbent" <> EmptyString) by discriminate.
  destruct (year_actions_need_comma Scripted.world ["jane"; "doe"]
              "Current incumbent" Hne) as [_ Hend].
  apply (Hend eq_refl). reflexivity.
Defined.

(** ** Exceptions raised by the actions *)

Lemma extractors_need_infobox (w : World) (name html : string) :
  get_page_html w name = Return html ->
  find_all_infobox w html = [] ->
  get_incumbency_start w name = Raise (LookupError "Page has no infobox")
  /\ get_incumbency_end w name = Raise (LookupError "Page has no infobox")
  /\ get_number w name = Raise (LookupError "Page has no infobox")
  /\ get_birth_date w name = Raise (LookupError "Page has no infobox")
  /\ get_polar_radius w name = Raise (LookupError "Page has no infobox").
Proof.
  intros Hpage Hnone. pose proof (no_infobox w html Hnone) as Hbox.
  unfold get_incumbency_start, get_incumbency_end, get_number,
    get_birth_date, get_polar_radius.
  rewrite Hpage. simpl. rewrite Hbox. simpl. repeat split; reflexivity.
Qed.

Lemma head_action_raises
    (pat : Pattern) (act : Action) (rest : list (Pattern * Action))
    (src captured : list string) (previous_name : string) (e : exn) :
  match_ pat src = Some captured ->
  act (dispatched_argument captured previous_name) = Raise e ->
  search_pa_list_from ((pat, act) :: rest) src previous_name
  = (Raise e, previous_name).
Proof.
  intros Hm Ha. unfold dispatched_argument in Ha.
  destruct (names_pronoun captured) eqn:Hp.
  - rewrite (head_pronoun pat act rest src captured previous_name Hm Hp), Ha.
    reflexivity.
  - rewrite (head_plain pat act rest src captured previous_name Hm Hp), Ha.
    reflexivity.
Qed.

(** C9.  When the entry the dispatcher examines matches and its action
    raises, the call ends in that exception with [previous_name] as it was;
    [bye_action] raises [KeyboardInterrupt] on every argument. *)
Theorem action_exception_keeps_previous_name
    (pat : Pattern) (act : Action) (rest : list (Pattern * Action))
    (src captured : list string) (previous_name : string) (e : exn) :
  match_ pat src = Some captured ->
  act (dispatched_argument captured previous_name) = Raise e ->
  search_pa_list_from ((pat, act) :: rest) src previous_name
  = (Raise e, previous_name)
  /\ forall dummy : list string, bye_action dummy = Raise KeyboardInterrupt.
Proof.
  intros Hm Ha. split; [|reflexivity].
  exact (head_action_raises pat act rest src captured previous_name e Hm Ha).
Qed.

Lemma action_exception_keeps_previous_name_witness :
  search_pa_list_from Scripted.bye_table ["bye"] "abraham"
  = (Raise KeyboardInterrupt, "abraham")
  /\ search_pa_list Scripted.world ["when"; "did"; "john"; "doe"; "take"; "office"]
       "abraham"
     = (Raise (LookupError "Page has no infobox"), "abraham").
Proof.
  split.
  - exact (proj1 (action_exception_keeps_previous_name
                    ["bye"] bye_action [] ["bye"] [] "abraham"
                    KeyboardInterrupt eq_refl eq_refl)).
  - exact (proj1 (action_exception_keeps_previous_name
                    (Py.split_ws "when did % take office")
                    (incumbency_start Scripted.world)
                    (tl (pa_list Scripted.world))
                    ["when"; "did"; "john"; "doe"; "take"; "office"]
                    ["john"; "doe"] "abraham"
                    (LookupError "Page has no infobox") eq_refl eq_refl)).
Defined.

(** A page without infobox behind the first entry: the [LookupError] reaches
    the caller. *)
Lemma lookup_error_propagates_from_first_entry (w : World)
    (src captured : list string) (previous_name html : string) :
  match_ ["when"; "did"; "%"; "take"; "office"] src = Some captured ->
  get_page_html w (Py.join " " (dispatched_argument captured previous_name))
  = Return html ->
  find_all_infobox w html = [] ->
  search_pa_list w src previous_name
  = (Raise (LookupError "Page has no infobox"), previous_name).
Proof.
  intros Hm Hpage Hnone. unfold search_pa_list.
  destruct (first_pattern w) as [rest ->].
  apply head_action_raises with (captured := captured); [exact Hm|].
  unfold incumbency_start.
  destruct (extractors_need_infobox w _ html Hpage Hnone) as [-> _].
  reflexivity.
Qed.

(** C8.  The page found for [john doe] has no infobox and the action
    [incumbency_end] raises [LookupError] on it; the query
    [when did john doe leave office] matches the seventh entry, whose action
    that is, and the call ends in a [TypeError] instead: the first entry does
    not match, the scan stops there and no page is fetched. *)
Theorem no_infobox_behind_later_entry (previous_name : string) :
  nth_error (map fst (pa_list Scripted.world)) 6
  = Some (Py.split_ws "when did % leave office")
  /\ match_ (Py.split_ws "when did % leave office")
            ["when"; "did"; "john"; "doe"; "leave"; "office"]
     = Some ["john"; "doe"]
  /\ incumbency_end Scripted.world ["john"; "doe"]
     = Raise (LookupError "Page has no infobox")
  /\ search_pa_list Scripted.world
       ["when"; "did"; "john"; "doe"; "leave"; "office"] previous_name
     = (Raise TypeError, previous_name).
Proof.
  split; [reflexivity|]. split; [reflexivity|]. split; [reflexivity|].
  apply search_pa_list_first_unmatched. reflexivity.
Qed.

(** ** Worked examples in the scripted world *)

Example first_demo_query :
  search_pa_list Scripted.world (fst demo_queries) EmptyString
  = (Return ["March 4, 1861"], "abraham").
Proof. reflexivity. Qed.

Example pronoun_after_first_demo_query :
  search_pa_list Scripted.world ["when"; "did"; "he"; "take"; "office"] "abraham"
  = (Return ["March 4, 1861"], "abraham").
Proof. reflexivity. Qed.

Example second_demo_query :
  search_pa_list Scripted.world (snd demo_queries) "abraham"
  = (Raise TypeError, "abraham").
Proof. reflexivity. Qed.

Example bye_query :
  search_pa_list Scripted.world ["bye"] "abraham" = (Raise TypeError, "abraham").
Proof. reflexivity. Qed.

Example empty_capture_query :
  search_pa_list_from [(["hello"], Scripted.silent)] ["hello"] "abraham"
  = (Raise IndexError, "abraham").
Proof. reflexivity. Qed.

Example two_terms : number Scripted.world ["grover"; "cleveland"] = Return ["22 & 24"].
Proof. reflexivity. Qed.

(** * Further properties *)

(** ** Cleaning the infobox text *)

Lemma append_nil_r (s : string) : (s ++ EmptyString)%string = s.
Proof. induction s as [|c s IH]; simpl; [reflexivity|]. rewrite IH. reflexivity. Qed.

Lemma only_ascii_map_chars (text : string) :
  String.concat EmptyString
    (map (fun char => if Py.printable char then String char EmptyString else " ")
         (list_ascii_of_string text))
  = map_chars printable_or_space text.
Proof.
  induction text as [|c text IH]; [reflexivity|].
  cbn [list_ascii_of_string map map_chars].
  rewrite <- IH. unfold printable_or_space.
  destruct (list_ascii_of_string text) as [|c' l]; simpl.
  - destruct (Py.printable c); reflexivity.
  - destruct (Py.printable c); reflexivity.
Qed.

Lemma clean_text_stages (text : string) :
  clean_text text
  = Py.collapse_runs (ascii_of_nat 10)
      (Py.collapse_runs " " (map_chars printable_or_space text)).
Proof. unfold clean_text. rewrite only_ascii_map_chars. reflexivity. Qed.

Lemma collapse_runs_cons (c a : ascii) (s : string) :
  Py.collapse_runs c (String a s)
  = if Ascii.eqb a c && head_is c s then Py.collapse_runs c s
    else String a (Py.collapse_runs c s).
Proof.
  destruct s as [|b s]; simpl.
  - destruct (Ascii.eqb a c); reflexivity.
  - destruct (Ascii.eqb a c), (Ascii.eqb b c); reflexivity.
Qed.

Lemma no_double_cons (c a : ascii) (s : string) :
  no_double c (String a s)
  = negb (Ascii.eqb a c && head_is c s) && no_double c s.
Proof.
  destruct s as [|b s]; simpl; [|reflexivity].
  rewrite andb_false_r. reflexivity.
Qed.

Lemma head_is_collapse_runs (c d : ascii) (s : string) :
  head_is d (Py.collapse_runs c s) = head_is d s.
Proof.
  induction s as [|a s IH]; [reflexivity|].
  rewrite collapse_runs_cons.
  destruct (Ascii.eqb a c && head_is c s) eqn:E; [|reflexivity].
  apply andb_true_iff in E as [Ea Es].
  rewrite IH. apply Ascii.eqb_eq in Ea. subst a.
  destruct s as [|b s]; [discriminate|]. simpl in *.
  apply Ascii.eqb_eq in Es. subst b. reflexivity.
Qed.

Lemma collapse_runs_no_double (c : ascii) (s : string) :
  no_double c (Py.collapse_runs c s) = true.
Proof.
  induction s as [|a s IH]; [reflexivity|].
  rewrite collapse_runs_cons.
  destruct (Ascii.eqb a c && head_is c s) eqn:E; [exact IH|].
  rewrite no_double_cons, head_is_collapse_runs, E, IH. reflexivity.
Qed.

Lemma collapse_runs_keeps_no_double (c d : ascii) (s : string) :
  no_double d s = true -> no_double d (Py.collapse_runs c s) = true.
Proof.
  induction s as [|a s IH]; [reflexivity|].
  rewrite no_double_cons. intros H. apply andb_true_iff in H as [Hhead Htail].
  rewrite collapse_runs_cons.
  destruct (Ascii.eqb a c && head_is c s); [exact (IH Htail)|].
  rewrite no_double_cons, head_is_collapse_runs, Hhead, (IH Htail). reflexivity.
Qed.

Lemma collapse_runs_keeps_all_chars (p : ascii -> bool) (c : ascii) (s : string) :
  all_chars p s = true -> all_chars p (Py.collapse_runs c s) = true.
Proof.
  induction s as [|a s IH]; [reflexivity|].
  intros H. simpl in H. apply andb_true_iff in H as [Ha Hs].
  rewrite collapse_runs_cons.
  destruct (Ascii.eqb a c && head_is c s); [exact (IH Hs)|].
  simpl. rewrite Ha, (IH Hs). reflexivity.
Qed.

Lemma collapse_runs_fixed (c : ascii) (s : string) :
  no_double c s = true -> Py.collapse_runs c s = s.
Proof.
  induction s as [|a s IH]; [reflexivity|].
  rewrite no_double_cons. intros H. apply andb_true_iff in H as [Hhead Htail].
  rewrite collapse_runs_cons.
  apply negb_true_iff in Hhead. rewrite Hhead, (IH Htail). reflexivity.
Qed.

Lemma collapse_runs_length (c : ascii) (s : string) :
  String.length (Py.collapse_runs c s) <= String.length s.
Proof.
  induction s as [|a s IH]; [apply le_n|].
  rewrite collapse_runs_cons.
  destruct (Ascii.eqb a c && head_is c s); simpl; lia.
Qed.

Lemma printable_or_space_printable (c : ascii) :
  Py.printable (printable_or_space c) = true.
Proof.
  unfold printable_or_space. destruct (Py.printable c) eqn:E; [exact E|reflexivity].
Qed.

Lemma map_chars_printable (s : string) :
  all_chars Py.printable (map_chars printable_or_space s) = true.
Proof.
  induction s as [|c s IH]; [reflexivity|].
  simpl. rewrite printable_or_space_printable, IH. reflexivity.
Qed.

Lemma map_chars_length (f : ascii -> ascii) (s : string) :
  String.length (map_chars f s) = String.length s.
Proof. induction s as [|c s IH]; simpl; [reflexivity|]. rewrite IH. reflexivity. Qed.

Lemma map_chars_fixed (s : string) :
  all_chars Py.printable s = true -> map_chars printable_or_space s = s.
Proof.
  induction s as [|c s IH]; [reflexivity|].
  simpl. intros H. apply andb_true_iff in H as [Hc Hs].
  unfold printable_or_space at 1. rewrite Hc, (IH Hs). reflexivity.
Qed.

Lemma clean_text_is_clean (text : string) :
  all_chars Py.printable (clean_text text) = true
  /\ no_double " " (clean_text text) = true
  /\ no_double (ascii_of_nat 10) (clean_text text) = true.
Proof.
  rewrite clean_text_stages. split; [|split].
  - apply collapse_runs_keeps_all_chars, collapse_runs_keeps_all_chars,
      map_chars_printable.
  - apply collapse_runs_keeps_no_double, collapse_runs_no_double.
  - apply collapse_runs_no_double.
Qed.

Lemma clean_text_keeps_clean (text : string) :
  all_chars Py.printable text = true ->
  no_double " " text = true ->
  no_double (ascii_of_nat 10) text = true ->
  clean_text text = text.
Proof.
  intros Hp Hs Hn. rewrite clean_text_stages.
  rewrite (map_chars_fixed text Hp), (collapse_runs_fixed " " text Hs).
  exact (collapse_runs_fixed _ text Hn).
Qed.

(** X1.  The text [clean_text] returns holds printable characters only. *)
Theorem clean_text_printable (text : string) :
  all_chars Py.printable (clean_text text) = true.
Proof. exact (proj1 (clean_text_is_clean text)). Qed.

(** X2.  The text [clean_text] returns has no two spaces in a row and no two
    newlines in a row. *)
Theorem clean_text_no_runs (text : string) :
  no_double " " (clean_text text) = true
  /\ no_double (ascii_of_nat 10) (clean_text text) = true.
Proof. exact (proj2 (clean_text_is_clean text)). Qed.

(** X3.  [clean_text] leaves a text as it is exactly when the text holds
    printable characters only, no two spaces in a row and no two newlines in
    a row. *)
Theorem clean_text_fixed_points (text : string) :
  clean_text text = text
  <-> all_chars Py.printable text = true
      /\ no_double " " text = true
      /\ no_double (ascii_of_nat 10) text = true.
Proof.
  split.
  - intros H. rewrite <- H. exact (clean_text_is_clean text).
  - intros (Hp & Hs & Hn). exact (clean_text_keeps_clean text Hp Hs Hn).
Qed.

(** X4.  Cleaning twice is cleaning once. *)
Theorem clean_text_idempotent (text : string) :
  clean_text (clean_text text) = clean_text text.
Proof.
  destruct (clean_text_is_clean text) as (Hp & Hs & Hn).
  exact (clean_text_keeps_clean (clean_text text) Hp Hs Hn).
Qed.

(** X5.  [clean_text] never makes a text longer. *)
Theorem clean_text_length (text : string) :
  String.length (clean_text text) <= String.length text.
Proof.
  rewrite clean_text_stages.
  pose proof (collapse_runs_length (ascii_of_nat 10)
                (Py.collapse_runs " " (map_chars printable_or_space text))).
  pose proof (collapse_runs_length " " (map_chars printable_or_space text)).
  rewrite map_chars_length in *. lia.
Qed.

(** ** More on the extractors *)

(** X6.  On a page with an infobox, [get_incumbency_start] returns the group
    [officestart] of the in-office pattern when that pattern matches; when it
    does not, the group [officestart] of the assumed-office pattern when that
    one matches; when neither matches it raises [AttributeError]. *)
Theorem get_incumbency_start_layouts (w : World) (name html box : string) :
  get_page_html w name = Return html ->
  get_first_infobox_text w html = Return box ->
  match re_search w office_pattern_start (clean_text box) with
  | Some m => get_incumbency_start w name = Return (group m "officestart")
  | None =>
      match re_search w incumbent_pattern (clean_text box) with
      | Some m => get_incumbency_start w name = Return (group m "officestart")
      | None =>
          get_incumbency_start w name
          = Raise (AttributeError "Page infobox has no incumbency start information")
      end
  end.
Proof.
  intros Hpage Hbox. unfold get_incumbency_start.
  rewrite Hpage. simpl. rewrite Hbox. simpl. unfold get_match.
  destruct (re_search w office_pattern_start (clean_text box)) as [m|];
    simpl; [reflexivity|].
  destruct (re_search w incumbent_pattern (clean_text box)) as [m|];
    reflexivity.
Qed.

Lemma get_incumbency_start_layouts_witness :
  get_incumbency_start Scripted.world "abraham lincoln" = Return "March 4, 1861"
  /\ get_incumbency_start Scripted.world "jane doe" = Return "January 20, 2029"
  /\ get_incumbency_start Scripted.world "lincoln memorial"
     = Raise (AttributeError "Page infobox has no incumbency start information").
Proof.
  split; [|split].
  - exact (get_incumbency_start_layouts Scripted.world "abraham lincoln"
             "<html>Abraham Lincoln</html>" Scripted.lincoln_box eq_refl eq_refl).
  - exact (get_incumbency_start_layouts Scripted.world "jane doe"
             "<html>Jane Doe</html>" Scripted.incumbent_box eq_refl eq_refl).
  - exact (get_incumbency_start_layouts Scripted.world "lincoln memorial"
             "<html>Lincoln Memorial</html>" Scripted.memorial_box eq_refl eq_refl).
Defined.

(** X7.  A page in the assumed-office layout (the two-date pattern fails,
    the assumed-office pattern matches): [incumbency_end] answers
    ["Current incumbent"], [incumbency_end_year] raises [IndexError], and
    [incumbency_start] has an answer. *)
Theorem incumbent_page_answers (w : World) (matches : list string)
    (html box : string) (m : Match) :
  get_page_html w (Py.join " " matches) = Return html ->
  get_first_infobox_text w html = Return box ->
  re_search w office_pattern_end (clean_text box) = None ->
  re_search w incumbent_pattern (clean_text box) = Some m ->
  incumbency_end w matches = Return ["Current incumbent"]
  /\ incumbency_end_year w matches = Raise IndexError
  /\ exists date, incumbency_start w matches = Return [date].
Proof.
  intros Hpage Hbox Hend Hinc.
  assert (E : get_incumbency_end w (Py.join " " matches)
              = Return "Current incumbent").
  { unfold get_incumbency_end. rewrite Hpage. simpl. rewrite Hbox. simpl.
    unfold get_match. rewrite Hend. simpl. rewrite Hinc. reflexivity. }
  split; [|split].
  - unfold incumbency_end. rewrite E. reflexivity.
  - unfold incumbency_end_year. rewrite E. reflexivity.
  - unfold incumbency_start, get_incumbency_start.
    rewrite Hpage. simpl. rewrite Hbox. simpl. unfold get_match.
    destruct (re_search w office_pattern_start (clean_text box)) as [m'|]; simpl.
    + eexists. reflexivity.
    + rewrite Hinc. simpl. eexists. reflexivity.
Qed.

Lemma incumbent_page_answers_witness :
  incumbency_end Scripted.world ["jane"; "doe"] = Return ["Current incumbent"]
  /\ incumbency_end_year Scripted.world ["jane"; "doe"] = Raise IndexError
  /\ exists date, incumbency_start Scripted.world ["jane"; "doe"] = Return [date].
Proof.
  exact (incumbent_page_answers Scripted.world ["jane"; "doe"]
           "<html>Jane Doe</html>" Scripted.incumbent_box
           (Scripted.bound [("officestart", "January 20, 2029")])
           eq_refl eq_refl eq_refl eq_refl).
Defined.

(** X8.  An exception raised before the patterns are tried, while the page
    is found and fetched or its first infobox is taken, leaves each of the
    five extractors unchanged; the [except AttributeError] clauses of the two
    incumbency extractors do not intercept it, whatever its class. *)
Theorem early_exception_propagates (w : World) (name : string) (e : exn) :
  (html <- get_page_html w name ;; get_first_infobox_text w html) = Raise e ->
  get_polar_radius w name = Raise e
  /\ get_birth_date w name = Raise e
  /\ get_incumbency_start w name = Raise e
  /\ get_incumbency_end w name = Raise e
  /\ get_number w name = Raise e.
Proof.
  intros H.
  unfold get_polar_radius, get_birth_date, get_incumbency_start,
    get_incumbency_end, get_number.
  destruct (get_page_html w name) as [html|e1]; simpl in *.
  - destruct (get_first_infobox_text w html) as [box|e2]; simpl in *;
      [discriminate|].
    injection H as ->. repeat split; reflexivity.
  - injection H as ->. repeat split; reflexivity.
Qed.

Lemma early_exception_propagates_witness :
  get_incumbency_end Scripted.world EmptyString = Raise IndexError
  /\ get_incumbency_start (search_fails (AttributeError "offline")) "jane doe"
     = Raise (AttributeError "offline").
Proof.
  split.
  - exact (proj1 (proj2 (proj2 (proj2
             (early_exception_propagates Scripted.world EmptyString IndexError
                eq_refl))))).
  - exact (proj1 (proj2 (proj2
             (early_exception_propagates (search_fails (AttributeError "offline"))
                "jane doe" (AttributeError "offline") eq_refl)))).
Defined.

(** ** More on the actions and the dispatcher *)

(** X9.  Each action of [pa_list], when it returns, returns exactly one
    string. *)
Theorem actions_return_one_string (w : World) (entry : Pattern * Action)
    (matches answers : list string) :
  In entry (pa_list w) ->
  snd entry matches = Return answers ->
  exists answer, answers = [answer].
Proof.
  assert (Hstart : forall l, incumbency_start w matches = Return l ->
                             exists a, l = [a]).
  { intros l. unfold incumbency_start.
    destruct (get_incumbency_start w (Py.join " " matches)); simpl;
      [|discriminate].
    intros H. injection H as <-. eexists. reflexivity. }
  assert (Hend : forall l, incumbency_end w matches = Return l ->
                           exists a, l = [a]).
  { intros l. unfold incumbency_end.
    destruct (get_incumbency_end w (Py.join " " matches)); simpl;
      [|discriminate].
    intros H. injection H as <-. eexists. reflexivity. }
  assert (Hstart_year : forall l, incumbency_start_year w matches = Return l ->
                                  exists a, l = [a]).
  { intros l. unfold incumbency_start_year.
    destruct (get_incumbency_start w (Py.join " " matches)) as [date|];
      simpl; [|discriminate].
    destruct (Py.truthy_str date).
    - destruct (Py.index (Py.split "," date) 1); simpl; [|discriminate].
      intros H. injection H as <-. eexists. reflexivity.
    - intros H. injection H as <-. eexists. reflexivity. }
  assert (Hend_year : forall l, incumbency_end_year w matches = Return l ->
                                exists a, l = [a]).
  { intros l. unfold incumbency_end_year.
    destruct (get_incumbency_end w (Py.join " " matches)) as [date|];
      simpl; [|discriminate].
    destruct (Py.truthy_str date).
    - destruct (Py.index (Py.split "," date) 1); simpl; [|discriminate].
      intros H. injection H as <-. eexists. reflexivity.
    - intros H. injection H as <-. eexists. reflexivity. }
  assert (Hnumber : forall l, number w matches = Return l -> exists a, l = [a]).
  { intros l. unfold number, get_number.
    destruct (get_page_html w (Py.join " " matches)) as [html|];
      simpl; [|discriminate].
    destruct (get_first_infobox_text w html) as [box|]; simpl; [|discriminate].
    destruct (re_findall w number_pattern (clean_text box)) as [|r0 [|r1 more]];
      simpl; [discriminate| |];
      intros H; injection H as <-; eexists; reflexivity. }
  unfold pa_list. simpl. intros H.
  repeat (destruct H as [<- | H];
          [simpl;
           first [apply Hstart | apply Hend | apply Hstart_year
                 | apply Hend_year | apply Hnumber]|]).
  destruct H as [<- | []]. discriminate.
Qed.

Lemma actions_return_one_string_witness :
  number Scripted.world ["grover"; "cleveland"] = Return ["22 & 24"]
  /\ exists answer, ["22 & 24"] = [answer].
Proof.
  split; [reflexivity|].
  apply (actions_return_one_string Scripted.world
           (Py.split_ws "what number president is %", number Scripted.world)
           ["grover"; "cleveland"] ["22 & 24"]).
  - simpl. do 10 right. left. reflexivity.
  - reflexivity.
Defined.

Lemma search_pa_list_head (w : World) (src : list string) (previous_name : string) :
  search_pa_list w src previous_name
  = search_pa_list_from [(take_office, incumbency_start w)] src previous_name.
Proof.
  unfold search_pa_list. destruct (first_pattern w) as [rest ->].
  destruct (match_ ["when"; "did"; "%"; "take"; "office"] src) as [captured|] eqn:Hm.
  - destruct (names_pronoun captured) eqn:Hp.
    + rewrite (head_pronoun _ _ rest src captured previous_name Hm Hp).
      rewrite (head_pronoun _ _ [] src captured previous_name Hm Hp).
      reflexivity.
    + rewrite (head_plain _ _ rest src captured previous_name Hm Hp).
      rewrite (head_plain _ _ [] src captured previous_name Hm Hp).
      reflexivity.
  - rewrite (head_unmatched _ _ rest src previous_name Hm).
    rewrite (head_unmatched _ _ [] src previous_name Hm).
    reflexivity.
Qed.

Lemma search_pa_list_cases (w : World) (src : list string) (previous_name : string) :
  search_pa_list w src previous_name
  = match match_ take_office src with
    | None => (Raise TypeError, previous_name)
    | Some captured =>
        if names_pronoun captured then
          (answer <- incumbency_start w [previous_name] ;;
           Return (answer_or_default answer), previous_name)
        else
          match incumbency_start w captured with
          | Raise e => (Raise e, previous_name)
          | Return answer =>
              match captured with
              | [] => (Raise IndexError, previous_name)
              | first :: _ => (Return (answer_or_default answer), first)
              end
          end
    end.
Proof.
  rewrite search_pa_list_head.
  destruct (match_ take_office src) as [captured|] eqn:Hm.
  - destruct (names_pronoun captured) eqn:Hp.
    + exact (head_pronoun _ _ [] src captured previous_name Hm Hp).
    + exact (head_plain _ _ [] src captured previous_name Hm Hp).
  - exact (head_unmatched _ _ [] src previous_name Hm).
Qed.

(** X10.  Whenever [search_pa_list] returns, the query matched the first
    pattern, [when did % take office], with a non-empty capture, and the
    list returned holds one string: the start date [get_incumbency_start]
    found for the dispatched subject.  [previous_name] is then unchanged by a
    pronoun query and the first captured token otherwise. *)
Theorem search_pa_list_returns (w : World) (src : list string)
    (previous_name previous_name' : string) (answers : list string) :
  search_pa_list w src previous_name = (Return answers, previous_name') ->
  exists captured date,
    match_ take_office src = Some captured
    /\ captured <> []
    /\ get_incumbency_start w
         (Py.join " " (dispatched_argument captured previous_name)) = Return date
    /\ answers = [date]
    /\ previous_name'
       = (if names_pronoun captured then previous_name
          else nth 0 captured previous_name).
Proof.
  rewrite search_pa_list_cases.
  destruct (match_ take_office src) as [captured|]; [|discriminate].
  unfold dispatched_argument.
  destruct (names_pronoun captured) eqn:Hp.
  - unfold incumbency_start.
    destruct (get_incumbency_start w (Py.join " " [previous_name])) as [date|]
      eqn:Hd; simpl; [|discriminate].
    intros H. injection H as <- <-.
    exists captured, date. rewrite Hp.
    repeat split; try assumption.
    intros ->. discriminate.
  - unfold incumbency_start.
    destruct (get_incumbency_start w (Py.join " " captured)) as [date|]
      eqn:Hd; simpl; [|discriminate].
    destruct captured as [|first more]; [discriminate|].
    intros H. injection H as <- <-.
    exists (first :: more), date. rewrite Hp.
    repeat split; try assumption. discriminate.
Qed.

Lemma search_pa_list_returns_witness :
  exists captured date,
    match_ take_office ["when"; "did"; "abraham"; "lincoln"; "take"; "office"]
    = Some captured
    /\ captured <> []
    /\ get_incumbency_start Scripted.world
         (Py.join " " (dispatched_argument captured EmptyString)) = Return date
    /\ ["March 4, 1861"] = [date]
    /\ "abraham"
       = (if names_pronoun captured then EmptyString
          else nth 0 captured EmptyString).
Proof.
  exact (search_pa_list_returns Scripted.world
           ["when"; "did"; "abraham"; "lincoln"; "take"; "office"]
           EmptyString "abraham" ["March 4, 1861"] eq_refl).
Defined.

(** X11.  A call of [search_pa_list] changes [previous_name] only when it
    answers a [when did % take office] query without pronoun; the new value
    is the first captured token. *)
Theorem previous_name_changes_only_on_answer (w : World) (src : list string)
    (previous_name previous_name' : string) (outcome : result (list string)) :
  search_pa_list w src previous_name = (outcome, previous_name') ->
  previous_name' <> previous_name ->
  exists answers first more,
    outcome = Return answers
    /\ match_ take_office src = Some (first :: more)
    /\ names_pronoun (first :: more) = false
    /\ previous_name' = first.
Proof.
  rewrite search_pa_list_cases. intros H Hne.
  destruct (match_ take_office src) as [captured|].
  - destruct (names_pronoun captured) eqn:Hp.
    + injection H as _ H. congruence.
    + destruct (incumbency_start w captured) as [answer|e].
      * destruct captured as [|first more].
        -- injection H as _ H. congruence.
        -- injection H as H1 H2.
           exists (answer_or_default answer), first, more.
           repeat split; congruence.
      * injection H as _ H. congruence.
  - injection H as _ H. congruence.
Qed.

Lemma previous_name_changes_only_on_answer_witness :
  exists answers first more,
    Return ["March 4, 1861"] = Return answers
    /\ match_ take_office ["when"; "did"; "abraham"; "lincoln"; "take"; "office"]
       = Some (first :: more)
    /\ names_pronoun (first :: more) = false
    /\ "abraham" = first.
Proof.
  apply (previous_name_changes_only_on_answer Scripted.world
           ["when"; "did"; "abraham"; "lincoln"; "take"; "office"]
           EmptyString "abraham" (Return ["March 4, 1861"])).
  - reflexivity.
  - discriminate.
Defined.

(** X12.  After an answered query that captured a name of several tokens, a
    pronoun query is dispatched with the first of those tokens alone as the
    subject, and [previous_name] keeps that token. *)
Theorem follow_up_uses_first_token (w : World) (src1 src2 : list string)
    (first : string) (more captured2 answers : list string)
    (previous_name : string) :
  match_ take_office src1 = Some (first :: more) ->
  names_pronoun (first :: more) = false ->
  incumbency_start w (first :: more) = Return answers ->
  match_ take_office src2 = Some captured2 ->
  names_pronoun captured2 = true ->
  search_pa_list w src2 (snd (search_pa_list w src1 previous_name))
  = (answer <- incumbency_start w [first] ;; Return (answer_or_default answer),
     first).
Proof.
  intros Hm1 Hp1 Ha Hm2 Hp2.
  rewrite (search_pa_list_cases w src1), Hm1, Hp1, Ha. simpl snd.
  rewrite (search_pa_list_cases w src2), Hm2, Hp2. reflexivity.
Qed.

Lemma follow_up_uses_first_token_witness :
  search_pa_list Scripted.world ["when"; "did"; "he"; "take"; "office"]
    (snd (search_pa_list Scripted.world
            ["when"; "did"; "abraham"; "lincoln"; "take"; "office"] EmptyString))
  = (answer <- incumbency_start Scripted.world ["abraham"] ;;
     Return (answer_or_default answer), "abraham").
Proof.
  exact (follow_up_uses_first_token Scripted.world
           ["when"; "did"; "abraham"; "lincoln"; "take"; "office"]
           ["when"; "did"; "he"; "take"; "office"]
           "abraham" ["lincoln"] ["he"] ["March 4, 1861"] EmptyString
           eq_refl eq_refl eq_refl eq_refl eq_refl).
Defined.

(** X13.  When the examined entry matches with an empty capture and its
    action returns, the answer is lost: the assignment
    [previous_name = mat[0]] raises [IndexError], and [previous_name] keeps
    its value. *)
Theorem empty_capture_loses_answer
    (pat : Pattern) (act : Action) (rest : list (Pattern * Action))
    (src answer : list string) (previous_name : string) :
  match_ pat src = Some [] ->
  act [] = Return answer ->
  search_pa_list_from ((pat, act) :: rest) src previous_name
  = (Raise IndexError, previous_name).
Proof.
  intros Hm Ha.
  rewrite (head_plain pat act rest src [] previous_name Hm eq_refl), Ha.
  reflexivity.
Qed.

Lemma empty_capture_loses_answer_witness :
  search_pa_list_from [(["hello"], fun _ => Return ["hello yourself"])]
    ["hello"] "abraham"
  = (Raise IndexError, "abraham").
Proof.
  exact (empty_capture_loses_answer ["hello"] (fun _ => Return ["hello yourself"])
           [] ["hello"] ["hello yourself"] "abraham" eq_refl eq_refl).
Defined.

(** X14.  The two calls the module makes when it is imported never both
    return: either the first one raises, or it returns and the second one
    raises [TypeError]. *)
Theorem module_demo_never_completes (w : World) :
  module_demo w
  = match search_pa_list w (fst demo_queries) EmptyString with
    | (Raise e, previous_name) => (Raise e, previous_name)
    | (Return _, previous_name) => (Raise TypeError, previous_name)
    end.
Proof.
  unfold module_demo.
  destruct (search_pa_list w (fst demo_queries) EmptyString)
    as [[answers|e] previous_name]; [|reflexivity].
  rewrite search_pa_list_first_unmatched; reflexivity.
Qed.

(** ** The console loop *)

Lemma lower_char_not_upper (c : ascii) :
  Console.is_upper (Console.lower_char c) = false.
Proof. destruct c as [[] [] [] [] [] [] [] []]; reflexivity. Qed.

Lemma lower_char_question_mark (c : ascii) :
  Ascii.eqb (Console.lower_char c) "?" = Ascii.eqb c "?".
Proof. destruct c as [[] [] [] [] [] [] [] []]; reflexivity. Qed.

Lemma remove_char_removes (c : ascii) (s : string) :
  all_chars (fun a => negb (Ascii.eqb a c)) (Console.remove_char c s) = true.
Proof.
  induction s as [|a s IH]; [reflexivity|].
  simpl. destruct (Ascii.eqb a c) eqn:E; [exact IH|].
  simpl. rewrite E, IH. reflexivity.
Qed.

Lemma lower_char_not_ascii_capital (c : ascii) :
  ascii_capital (Console.lower_char c) = false.
Proof. destruct c as [[] [] [] [] [] [] [] []]; reflexivity. Qed.

Lemma lower_keeps_no_question_mark (s : string) :
  all_chars (fun a => negb (Ascii.eqb a "?")) s = true ->
  all_chars (fun a => negb (Ascii.eqb a "?") && negb (ascii_capital a))
            (Console.lower s) = true.
Proof.
  induction s as [|a s IH]; [reflexivity|].
  simpl. intros H. apply andb_true_iff in H as [Ha Hs].
  rewrite lower_char_question_mark, Ha, lower_char_not_ascii_capital, (IH Hs).
  reflexivity.
Qed.

Lemma split_ws_cons (c : ascii) (s : string) :
  Py.split_ws (String c s)
  = if Py.isspace c then Py.split_ws s
    else match s with
         | EmptyString => [String c EmptyString]
         | String c' _ =>
             if Py.isspace c' then String c EmptyString :: Py.split_ws s
             else match Py.split_ws s with
                  | h :: t => String c h :: t
                  | [] => [String c EmptyString]
                  end
         end.
Proof. destruct s; reflexivity. Qed.

Lemma split_ws_tokens (p : ascii -> bool) (s : string) :
  all_chars p s = true ->
  Forall (fun tok => tok <> EmptyString
                     /\ all_chars (fun c => negb (Py.isspace c) && p c) tok = true)
         (Py.split_ws s).
Proof.
  induction s as [|c s IH]; [constructor|].
  intros H. simpl in H. apply andb_true_iff in H as [Hc Hs].
  specialize (IH Hs). rewrite split_ws_cons.
  destruct (Py.isspace c) eqn:Hsp; [exact IH|].
  assert (Hone : String c EmptyString <> EmptyString
                 /\ all_chars (fun c => negb (Py.isspace c) && p c)
                              (String c EmptyString) = true).
  { split; [discriminate|]. simpl. rewrite Hsp, Hc. reflexivity. }
  destruct s as [|c' s']; [constructor; [exact Hone|constructor]|].
  destruct (Py.isspace c'); [constructor; assumption|].
  destruct (Py.split_ws (String c' s')) as [|h t];
    [constructor; [exact Hone|constructor]|].
  inversion IH as [|? ? [Hne Hh] Ht]; subst.
  constructor; [|exact Ht].
  split; [discriminate|]. simpl. rewrite Hsp, Hc, Hh. reflexivity.
Qed.

(** X15.  The tokens [query_loop] hands to [search_pa_list] are non-empty
    and hold no whitespace, no question mark and none of the letters A to
    Z. *)
Theorem read_query_tokens (line : string) :
  Forall (fun tok =>
            tok <> EmptyString
            /\ all_chars (fun c => negb (Py.isspace c)
                                   && (negb (Ascii.eqb c "?")
                                       && negb (ascii_capital c))) tok = true)
         (Console.read_query line).
Proof.
  unfold Console.read_query.
  apply split_ws_tokens, lower_keeps_no_question_mark, remove_char_removes.
Qed.

(** X16.  A typed line whose tokens the first pattern does not match ends
    the loop with an uncaught [TypeError]: the keys after it are not read,
    no farewell is printed, and [previous_name] keeps its value. *)
Theorem unmatched_line_ends_loop (w : World) (line : string)
    (rest : list Console.keyboard) (previous_name out : string) :
  match_ take_office (Console.read_query line) = None ->
  Console.while_loop w (Console.Typed line :: rest) previous_name out
  = ((Console.print out EmptyString ++ "Your query? ")%string,
     previous_name, Console.Propagate TypeError)
  /\ Console.query_loop w (Console.Typed line :: rest) previous_name
     = ((Console.print
           (Console.print EmptyString "Presidental Information System")
           EmptyString ++ "Your query? ")%string,
        previous_name, Some TypeError).
Proof.
  intros H.
  assert (E : Console.while_loop w (Console.Typed line :: rest) previous_name out
              = ((Console.print out EmptyString ++ "Your query? ")%string,
                 previous_name, Console.Propagate TypeError)).
  { intros. simpl.
    rewrite (search_pa_list_first_unmatched w _ previous_name H). reflexivity. }
  split; [exact E|].
  unfold Console.query_loop. simpl.
  rewrite (search_pa_list_first_unmatched w _ previous_name H). reflexivity.
Qed.

Lemma unmatched_line_ends_loop_witness :
  Console.query_loop Scripted.world
    [Console.Typed "Bye?";
     Console.Typed "when did abraham lincoln take office"] "abraham"
  = ((Console.print
        (Console.print EmptyString "Presidental Information System")
        EmptyString ++ "Your query? ")%string,
     "abraham", Some TypeError).
Proof.
  exact (proj2 (unmatched_line_ends_loop Scripted.world "Bye?"
                  [Console.Typed "when did abraham lincoln take office"]
                  "abraham" EmptyString eq_refl)).
Defined.



